(** * Track monitoring dashboard: health score, alerting and history buffers

    A shallow embedding of [main.py].  Sensor values are modelled as exact
    rationals ([Q]), a decimal literal of the source denoting its decimal
    value; the clock and the random source are inputs of the tick update.
    The binary64 evaluation of the health score and of the tick is modelled
    separately, with primitive floats, in [Binary64]: what depends on
    rounding, or on the float a threshold literal denotes, is stated there. *)

From Stdlib Require Import List String Ascii ZArith QArith Qabs Lia Lqa Bool.
From Stdlib Require Import DecimalString.
From Stdlib Require Import Sorted.
From Stdlib Require Import Floats.
Import ListNotations.

#[local] Set Warnings "-inexact-float".

Local Open Scope Q_scope.

(** ** Configuration tables *)

Inductive metric : Type := acoustic | vibration | temperature | humidity.

(** The key of a metric, as it is interpolated into alert messages. *)
Definition metric_name (m : metric) : string :=
  match m with
  | acoustic => "acoustic"
  | vibration => "vibration"
  | temperature => "temperature"
  | humidity => "humidity"
  end.

Record threshold : Type := mkThreshold {
  warning : Q;
  danger : Q;
  unit_label : string;
  min : Q;
  max : Q
}.

(** The degree sign of the temperature unit, as its two UTF-8 bytes. *)
Definition degree_sign : string :=
  String (ascii_of_nat 194) (String (ascii_of_nat 176) EmptyString).

Definition THRESHOLDS (m : metric) : threshold :=
  match m with
  | acoustic => mkThreshold 65 75 "dB" 40 90
  | vibration => mkThreshold 0.5 0.7 "g" 0 1
  | temperature => mkThreshold 28 30 (degree_sign ++ "C") 20 35
  | humidity => mkThreshold 65 75 "%" 30 90
  end.

(** ** Readings *)

(** The dictionary built by [generate_sensor_data]: one value per metric,
    with keys in insertion order acoustic, vibration, temperature, humidity. *)
Record reading : Type := mkReading {
  r_acoustic : Q;
  r_vibration : Q;
  r_temperature : Q;
  r_humidity : Q
}.

Definition get (d : reading) (m : metric) : Q :=
  match m with
  | acoustic => r_acoustic d
  | vibration => r_vibration d
  | temperature => r_temperature d
  | humidity => r_humidity d
  end.

Definition keys : list metric := [acoustic; vibration; temperature; humidity].

(** [new_data.items()] *)
Definition items (d : reading) : list (metric * Q) :=
  map (fun m => (m, get d m)) keys.

(** ** Health score *)

Definition weights (m : metric) : Q :=
  match m with
  | acoustic => 0.3
  | vibration => 0.3
  | temperature => 0.2
  | humidity => 0.2
  end.

Definition normalized_values (data : reading) (m : metric) : Q :=
  match m with
  | acoustic =>
      1 - (get data acoustic - min (THRESHOLDS acoustic))
          / (max (THRESHOLDS acoustic) - min (THRESHOLDS acoustic))
  | vibration => 1 - get data vibration
  | temperature => 1 - Qabs (get data temperature - 25) / 15
  | humidity => 1 - Qabs (get data humidity - 60) / 40
  end.

(** Python's [sum]: a left fold starting from 0. *)
Definition sum (l : list Q) : Q := fold_left Qplus l 0.

Definition calculate_health_score (data : reading) : Q :=
  sum (map (fun key => normalized_values data key * weights key) keys) * 100.

(** ** Session state *)

(** [datetime.now()] is an input of the model: a point on the time line. *)
Definition datetime : Type := Z.

Record alert : Type := mkAlert {
  a_time : datetime;
  a_type : string;
  a_message : string
}.

Record report : Type := mkReport {
  rep_type : string;
  rep_title : string;
  rep_description : string;
  rep_priority : string;
  rep_time : datetime
}.

(** [st.session_state.monitoring_data]: five lists keyed by the four metrics
    and ['timestamps']. *)
Record monitoring : Type := mkMonitoring {
  md_acoustic : list Q;
  md_vibration : list Q;
  md_temperature : list Q;
  md_humidity : list Q;
  md_timestamps : list datetime
}.

Record session_state : Type := mkState {
  monitoring_data : monitoring;
  monitoring_active : bool;
  reports : list report;
  alerts : list alert
}.

Definition md_get (md : monitoring) (m : metric) : list Q :=
  match m with
  | acoustic => md_acoustic md
  | vibration => md_vibration md
  | temperature => md_temperature md
  | humidity => md_humidity md
  end.

Definition md_set (md : monitoring) (m : metric) (l : list Q) : monitoring :=
  match m with
  | acoustic =>
      mkMonitoring l (md_vibration md) (md_temperature md) (md_humidity md)
                   (md_timestamps md)
  | vibration =>
      mkMonitoring (md_acoustic md) l (md_temperature md) (md_humidity md)
                   (md_timestamps md)
  | temperature =>
      mkMonitoring (md_acoustic md) (md_vibration md) l (md_humidity md)
                   (md_timestamps md)
  | humidity =>
      mkMonitoring (md_acoustic md) (md_vibration md) (md_temperature md) l
                   (md_timestamps md)
  end.

Definition md_set_timestamps (md : monitoring) (l : list datetime) : monitoring :=
  mkMonitoring (md_acoustic md) (md_vibration md) (md_temperature md)
               (md_humidity md) l.

(** ** History buffers *)

Definition max_points : nat := 100.

(** The slice [l[-n:]] for a positive [n]: the last [n] elements of [l], or
    all of [l] when it is shorter. *)
Definition slice_last {A : Type} (n : nat) (l : list A) : list A :=
  skipn (List.length l - n) l.

(** [l.append(x)] followed by the truncation to the last [max_points]. *)
Definition append_bounded {A : Type} (x : A) (l : list A) : list A :=
  let l' := l ++ [x] in
  if (max_points <? List.length l')%nat then slice_last max_points l' else l'.

(** ** Alert messages *)

Definition string_of_natural (z : Z) : string :=
  NilZero.string_of_uint (N.to_uint (Z.to_N z)).

(** Nearest integer of a non-negative rational, ties to even. *)
Definition round_half_even (q : Q) : Z :=
  let n := Qnum q in
  let d := Z.pos (Qden q) in
  let fl := (n / d)%Z in
  match (2 * (n mod d) ?= d)%Z with
  | Lt => fl
  | Gt => (fl + 1)%Z
  | Eq => if Z.even fl then fl else (fl + 1)%Z
  end.

(** The format specification [:.1f]: sign, integer part, a point and one
    correctly rounded decimal. *)
Definition format_1f (value : Q) : string :=
  let tenths := round_half_even (Qabs value * 10) in
  ((if Qle_bool 0 value then "" else "-")
   ++ string_of_natural (tenths / 10) ++ "."
   ++ string_of_natural (tenths mod 10))%string.

Definition critical_message (m : metric) (value : Q) : string :=
  ("High " ++ metric_name m ++ " level detected: " ++ format_1f value ++ " "
   ++ unit_label (THRESHOLDS m))%string.

Definition warning_message (m : metric) (value : Q) : string :=
  ("Elevated " ++ metric_name m ++ " level: " ++ format_1f value ++ " "
   ++ unit_label (THRESHOLDS m))%string.

Definition critical_alert (t : datetime) (m : metric) (value : Q) : alert :=
  mkAlert t "CRITICAL" (critical_message m value).

Definition warning_alert (t : datetime) (m : metric) (value : Q) : alert :=
  mkAlert t "WARNING" (warning_message m value).

(** ** The tick update *)

(** [value >= bound] *)
Definition Qgeb (value bound : Q) : bool := Qle_bool bound value.

Definition get_status_color (value : Q) (m : metric) : string :=
  if Qgeb value (danger (THRESHOLDS m)) then "danger"
  else if Qgeb value (warning (THRESHOLDS m)) then "warning"
  else "good".

(** Body of the history loop of [update_monitoring_data] for one metric. *)
Definition record_metric (new_data : reading) (md : monitoring) (m : metric)
  : monitoring :=
  md_set md m (append_bounded (get new_data m) (md_get md m)).

(** Body of the alert loop for one [(metric, value)] item; [insert(0, _)]
    is a cons onto the log. *)
Definition alert_step (current_time : datetime) (log : list alert)
    (item : metric * Q) : list alert :=
  let (m, value) := item in
  if Qgeb value (danger (THRESHOLDS m)) then
    critical_alert current_time m value :: log
  else if Qgeb value (warning (THRESHOLDS m)) then
    warning_alert current_time m value :: log
  else log.

(** What the alert loop body adds for one item: no alert or one. *)
Definition emitted (current_time : datetime) (item : metric * Q) : list alert :=
  alert_step current_time [] item.

(** [update_monitoring_data], with the clock value and the sampled reading
    as explicit inputs. *)
Definition update_monitoring_data (current_time : datetime) (new_data : reading)
    (st : session_state) : session_state :=
  let md1 := fold_left (record_metric new_data) keys (monitoring_data st) in
  let md2 :=
    md_set_timestamps md1 (append_bounded current_time (md_timestamps md1)) in
  let log := fold_left (alert_step current_time) (items new_data) (alerts st) in
  mkState md2 (monitoring_active st) (reports st) log.

(** A run of ticks, oldest first. *)
Definition run_ticks (ticks : list (datetime * reading)) (st : session_state)
  : session_state :=
  fold_left (fun s tick => update_monitoring_data (fst tick) (snd tick) s)
            ticks st.

(** ** Clear Data *)

Inductive md_key : Type := MetricKey (m : metric) | TimestampsKey.

Definition md_keys : list md_key := map MetricKey keys ++ [TimestampsKey].

Definition md_clear_key (md : monitoring) (k : md_key) : monitoring :=
  match k with
  | MetricKey m => md_set md m []
  | TimestampsKey => md_set_timestamps md []
  end.

(** The handler of the Clear Data button. *)
Definition clear_data (st : session_state) : session_state :=
  mkState (fold_left md_clear_key md_keys (monitoring_data st))
          (monitoring_active st) (reports st) (alerts st).

Definition initial_state : session_state :=
  mkState (mkMonitoring [] [] [] [] []) false [] [].

(** The five histories have one common length, at most [max_points]. *)
Definition histories_aligned (md : monitoring) : Prop :=
  (forall m, List.length (md_get md m) = List.length (md_timestamps md))
  /\ (List.length (md_timestamps md) <= max_points)%nat.

(** Whether an alert record is about a metric: its message starts with
    "High" or "Elevated" followed by the metric's key. *)
Definition about (m : metric) (a : alert) : bool :=
  String.prefix ("High " ++ metric_name m ++ " ") (a_message a)
  || String.prefix ("Elevated " ++ metric_name m ++ " ") (a_message a).

(** ** Binary64 evaluation of the health score *)

(** [calculate_health_score] once more, every operation rounded as Python's
    floats round it; [fmin] and [fmax] are the ['min'] and ['max'] entries
    of [THRESHOLDS]. *)
Module Binary64.
Local Open Scope float_scope.

Record freading : Type := mkFReading {
  f_acoustic : float;
  f_vibration : float;
  f_temperature : float;
  f_humidity : float
}.

Definition fget (d : freading) (m : metric) : float :=
  match m with
  | acoustic => f_acoustic d
  | vibration => f_vibration d
  | temperature => f_temperature d
  | humidity => f_humidity d
  end.

Definition fmin (m : metric) : float :=
  match m with
  | acoustic => 40 | vibration => 0 | temperature => 20 | humidity => 30
  end.

Definition fmax (m : metric) : float :=
  match m with
  | acoustic => 90 | vibration => 1 | temperature => 35 | humidity => 90
  end.

Definition fweights (m : metric) : float :=
  match m with
  | acoustic => 0.3 | vibration => 0.3 | temperature => 0.2 | humidity => 0.2
  end.

Definition fnormalized_values (data : freading) (m : metric) : float :=
  match m with
  | acoustic =>
      1 - (fget data acoustic - fmin acoustic) / (fmax acoustic - fmin acoustic)
  | vibration => 1 - fget data vibration
  | temperature => 1 - abs (fget data temperature - 25) / 15
  | humidity => 1 - abs (fget data humidity - 60) / 40
  end.

Definition fsum (l : list float) : float := fold_left PrimFloat.add l 0.

Definition calculate_health_score (data : freading) : float :=
  fsum (map (fun key => fnormalized_values data key * fweights key) keys) * 100.



(** The number a finite float stands for. *)
Definition exact_value (x : float) : option Q :=
  match Prim2SF x with
  | S754_zero _ => Some 0%Q
  | S754_finite s m e =>
      Some ((if s then - (1) else 1) * inject_Z (Z.pos m) * 2 ^ e)%Q
  | S754_infinity _ | S754_nan => None
  end.

(** ** Binary64 evaluation of the tick *)

(** The ['warning'] and ['danger'] entries of [THRESHOLDS], as the floats
    the comparisons of the tick read. *)
Definition fwarning (m : metric) : float :=
  match m with
  | acoustic => 65 | vibration => 0.5 | temperature => 28 | humidity => 65
  end.

Definition fdanger (m : metric) : float :=
  match m with
  | acoustic => 75 | vibration => 0.7 | temperature => 30 | humidity => 75
  end.

(** The format specification [:.1f] of a float: the exact value rounded to
    one decimal, ties to even; the sign of a negative zero is kept. *)
Definition fformat_1f (value : float) : string :=
  match Prim2SF value, exact_value value with
  | S754_nan, _ => "nan"
  | S754_infinity s, _ => if s then "-inf" else "inf"
  | S754_zero true, _ => "-0.0"
  | _, Some q => format_1f q
  | _, None => "nan"
  end.

Definition fcritical_message (m : metric) (value : float) : string :=
  ("High " ++ metric_name m ++ " level detected: " ++ fformat_1f value ++ " "
   ++ unit_label (THRESHOLDS m))%string.

Definition fwarning_message (m : metric) (value : float) : string :=
  ("Elevated " ++ metric_name m ++ " level: " ++ fformat_1f value ++ " "
   ++ unit_label (THRESHOLDS m))%string.

Record fmonitoring : Type := mkFMonitoring {
  fmd_acoustic : list float;
  fmd_vibration : list float;
  fmd_temperature : list float;
  fmd_humidity : list float;
  fmd_timestamps : list datetime
}.

Record fsession_state : Type := mkFState {
  fmonitoring_data : fmonitoring;
  fmonitoring_active : bool;
  freports : list report;
  falerts : list alert
}.

Definition fmd_get (md : fmonitoring) (m : metric) : list float :=
  match m with
  | acoustic => fmd_acoustic md
  | vibration => fmd_vibration md
  | temperature => fmd_temperature md
  | humidity => fmd_humidity md
  end.

Definition fmd_set (md : fmonitoring) (m : metric) (l : list float)
  : fmonitoring :=
  match m with
  | acoustic =>
      mkFMonitoring l (fmd_vibration md) (fmd_temperature md)
                    (fmd_humidity md) (fmd_timestamps md)
  | vibration =>
      mkFMonitoring (fmd_acoustic md) l (fmd_temperature md)
                    (fmd_humidity md) (fmd_timestamps md)
  | temperature =>
      mkFMonitoring (fmd_acoustic md) (fmd_vibration md) l
                    (fmd_humidity md) (fmd_timestamps md)
  | humidity =>
      mkFMonitoring (fmd_acoustic md) (fmd_vibration md)
                    (fmd_temperature md) l (fmd_timestamps md)
  end.

Definition fitems (d : freading) : list (metric * float) :=
  map (fun m => (m, fget d m)) keys.

Definition frecord_metric (new_data : freading) (md : fmonitoring)
    (m : metric) : fmonitoring :=
  fmd_set md m (append_bounded (fget new_data m) (fmd_get md m)).

(** Body of the alert loop: [value >= bound] is [bound <=? value]. *)
Definition falert_step (current_time : datetime) (log : list alert)
    (item : metric * float) : list alert :=
  let (m, value) := item in
  if fdanger m <=? value then
    mkAlert current_time "CRITICAL" (fcritical_message m value) :: log
  else if fwarning m <=? value then
    mkAlert current_time "WARNING" (fwarning_message m value) :: log
  else log.

(** [update_monitoring_data] on floats, the clock value and the sampled
    reading being inputs. *)
Definition update_monitoring_data (current_time : datetime)
    (new_data : freading) (st : fsession_state) : fsession_state :=
  let md1 := fold_left (frecord_metric new_data) keys (fmonitoring_data st) in
  let md2 :=
    mkFMonitoring (fmd_acoustic md1) (fmd_vibration md1) (fmd_temperature md1)
                  (fmd_humidity md1)
                  (append_bounded current_time (fmd_timestamps md1)) in
  let log :=
    fold_left (falert_step current_time) (fitems new_data) (falerts st) in
  mkFState md2 (fmonitoring_active st) (freports st) log.

(** What the alert loop body adds for one item: no alert or one. *)
Definition femitted (current_time : datetime) (item : metric * float)
  : list alert :=
  falert_step current_time [] item.

Definition finitial_state : fsession_state :=
  mkFState (mkFMonitoring [] [] [] [] []) false [] [].

End Binary64.

(** ** Sampling *)

(** [random.uniform(a, b)] computes [a + (b - a) * random()]; the draw of
    [random()], a number of the unit interval, is an input of the model. *)
Definition uniform (a b u : Q) : Q := a + (b - a) * u.

(** [generate_sensor_data], with one draw per metric. *)
Definition generate_sensor_data (u : metric -> Q) : reading :=
  mkReading
    (uniform (min (THRESHOLDS acoustic)) (max (THRESHOLDS acoustic))
             (u acoustic))
    (uniform (min (THRESHOLDS vibration)) (max (THRESHOLDS vibration))
             (u vibration))
    (uniform (min (THRESHOLDS temperature)) (max (THRESHOLDS temperature))
             (u temperature))
    (uniform (min (THRESHOLDS humidity)) (max (THRESHOLDS humidity))
             (u humidity)).

(** ** Sidebar and report form *)

(** The Active Monitoring toggle: the flag is written when the widget's
    value differs from it. *)
Definition sidebar_toggle (monitoring_toggle : bool) (st : session_state)
  : session_state :=
  if negb (Bool.eqb monitoring_toggle (monitoring_active st)) then
    mkState (monitoring_data st) monitoring_toggle (reports st) (alerts st)
  else st.

(** Submit Report: [reports.append(...)]. *)
Definition submit_report (r : report) (st : session_state) : session_state :=
  mkState (monitoring_data st) (monitoring_active st) (reports st ++ [r])
          (alerts st).

(** Recent Reports iterates over [reports[::-1]]. *)
Definition recent_reports (st : session_state) : list report :=
  rev (reports st).

(** ** Tabs *)

(** [l[-1]]: the last element, or nothing where Python raises IndexError. *)
Definition last_item {A : Type} (l : list A) : option A :=
  match rev l with
  | [] => None
  | x :: _ => Some x
  end.

(** The dictionary [latest_data] of the Overview tab. *)
Definition latest_data (md : monitoring) : option reading :=
  match last_item (md_acoustic md), last_item (md_vibration md),
        last_item (md_temperature md), last_item (md_humidity md) with
  | Some a, Some v, Some t, Some h => Some (mkReading a v t h)
  | _, _, _, _ => None
  end.

Inductive overview : Type :=
| Waiting
| IndexError
| Gauge (latest : reading) (health_score : Q) (status : metric -> string).

(** The Overview tab: the gauge and the four metric cards when the acoustic
    history is not empty, the waiting notice otherwise. *)
Definition overview_tab (st : session_state) : overview :=
  match md_acoustic (monitoring_data st) with
  | [] => Waiting
  | _ :: _ =>
      match latest_data (monitoring_data st) with
      | None => IndexError
      | Some latest =>
          Gauge latest (calculate_health_score latest)
                (fun m => get_status_color (get latest m) m)
      end
  end.

(** The Real-time Monitoring tab: for a selected metric the trace pairs the
    list of timestamps (x) with the metric's history (y); nothing is drawn
    while the list of timestamps is empty. *)
Definition realtime_trace (st : session_state) (m : metric)
  : option (list datetime * list Q) :=
  match md_timestamps (monitoring_data st) with
  | [] => None
  | _ :: _ =>
      Some (md_timestamps (monitoring_data st), md_get (monitoring_data st) m)
  end.

Inductive banner : Type := ErrorBanner | WarningBanner | InfoBanner.

Definition alert_banner (a : alert) : banner :=
  if String.eqb (a_type a) "CRITICAL" then ErrorBanner
  else if String.eqb (a_type a) "WARNING" then WarningBanner
  else InfoBanner.

(** The Alerts tab shows [alerts[:10]], each under the banner of its type. *)
Definition alerts_tab (st : session_state) : list (banner * alert) :=
  map (fun a => (alert_banner a, a)) (firstn 10 (alerts st)).

(** ** One run of the script *)

(** What a run reads from outside: the widgets, the clock and the sample. *)
Record inputs : Type := mkInputs {
  in_toggle : bool;
  in_clear : bool;
  in_report : option report;
  in_time : datetime;
  in_sample : reading
}.

(** The state when the tabs are drawn: after the sidebar. *)
Definition after_sidebar (i : inputs) (st : session_state) : session_state :=
  let st1 := sidebar_toggle (in_toggle i) st in
  if in_clear i then clear_data st1 else st1.

(** A whole run: sidebar, report form, then the tick when monitoring is
    active. *)
Definition script_run (i : inputs) (st : session_state) : session_state :=
  let st2 := after_sidebar i st in
  let st3 :=
    match in_report i with
    | Some r => submit_report r st2
    | None => st2
    end in
  if monitoring_active st3 then
    update_monitoring_data (in_time i) (in_sample i) st3
  else st3.

(** Successive runs, starting with the first of the list. *)
Definition run_script (runs : list inputs) (st : session_state)
  : session_state :=
  fold_left (fun s i => script_run i s) runs st.

(** The log is ordered newest first: no record is older than a record
    behind it. *)
Definition newest_first (log : list alert) : Prop :=
  StronglySorted (fun a b => (a_time b <= a_time a)%Z) log.

(** * Health score *)

(** Unfolds the score of a reading into its arithmetic expression, leaving
    absolute values folded. *)
Ltac score_unfold :=
  unfold calculate_health_score, sum, keys, normalized_values;
  cbn [map fold_left get r_acoustic r_vibration r_temperature r_humidity
       THRESHOLDS min max weights].

(** In exact arithmetic the score of the rational model is the weighted sum
    of the four goodness values, times 100. *)
Lemma health_score_weighted_sum (a v t h : Q) :
  calculate_health_score (mkReading a v t h) ==
  100 * (0.3 * (1 - (a - 40) / (90 - 40)) + 0.3 * (1 - v)
         + 0.2 * (1 - Qabs (t - 25) / 15)
         + 0.2 * (1 - Qabs (h - 60) / 40)).
Proof.
  score_unfold.
  field.
Qed.

(** The distance to a centre [c] of a value in [[lo, hi]] is at most the
    larger of the two half-widths. *)
Lemma Qabs_centre_bound (x lo hi c w : Q) :
  lo <= x -> x <= hi -> c - lo <= w -> hi - c <= w -> Qabs (x - c) <= w.
Proof.
  intros Hlo Hhi Hl Hr. apply Qabs_Qle_condition. split; lra.
Qed.

(** C2: for a reading whose four values lie in their configured ranges, the
    health score lies between 0 and 100. *)
Theorem health_score_in_range (data : reading) :
  (forall m, min (THRESHOLDS m) <= get data m <= max (THRESHOLDS m)) ->
  0 <= calculate_health_score data <= 100.
Proof.
  intros Hr.
  pose proof (Hr acoustic) as [Ha1 Ha2].
  pose proof (Hr vibration) as [Hv1 Hv2].
  pose proof (Hr temperature) as [Ht1 Ht2].
  pose proof (Hr humidity) as [Hh1 Hh2].
  destruct data as [a v t h]; simpl in *.
  assert (Ht : Qabs (t - 25) <= 10)
    by (apply (Qabs_centre_bound t 20 35); lra).
  assert (Hh : Qabs (h - 60) <= 30)
    by (apply (Qabs_centre_bound h 30 90); lra).
  pose proof (Qabs_nonneg (t - 25)) as Ht0.
  pose proof (Qabs_nonneg (h - 60)) as Hh0.
  score_unfold.
  unfold Qdiv.
  change (/ (90 - 40)) with (1 # 50).
  change (/ 15) with (1 # 15).
  change (/ 40) with (1 # 40).
  generalize dependent (Qabs (t - 25)); intros gt Ht Ht0.
  generalize dependent (Qabs (h - 60)); intros gh Hh Hh0.
  split; lra.
Qed.

Lemma health_score_in_range_witness :
  0 <= calculate_health_score (mkReading 80 0.2 25 60) <= 100.
Proof.
  apply (health_score_in_range (mkReading 80 0.2 25 60)).
  intros m; destruct m; simpl; split; unfold Qle; simpl; lia.
Defined.

(** * Alerting *)


(** * History buffers *)

Section Buffers.
Context {A : Type}.
Implicit Types (x : A) (l : list A).

Lemma slice_last_short n l : (List.length l <= n)%nat -> slice_last n l = l.
Proof.
  intros H. unfold slice_last.
  replace (List.length l - n)%nat with 0%nat by lia. reflexivity.
Qed.

Lemma length_slice_last n l :
  List.length (slice_last n l) = Nat.min (List.length l) n.
Proof. unfold slice_last. rewrite length_skipn. lia. Qed.

Lemma append_bounded_slice x l :
  append_bounded x l = slice_last max_points (l ++ [x]).
Proof.
  unfold append_bounded.
  destruct (Nat.ltb_spec max_points (List.length (l ++ [x]))) as [H | H].
  - reflexivity.
  - symmetry. apply slice_last_short. exact H.
Qed.

Lemma length_append_bounded x l :
  List.length (append_bounded x l) = Nat.min (S (List.length l)) max_points.
Proof.
  rewrite append_bounded_slice, length_slice_last, length_app.
  cbn [List.length]. lia.
Qed.

Lemma slice_last_snoc n l x :
  slice_last n (slice_last n l ++ [x]) = slice_last n (l ++ [x]).
Proof.
  unfold slice_last.
  rewrite !length_app, length_skipn. simpl.
  set (k := (List.length l - n)%nat).
  assert (Hk : (k <= List.length l)%nat) by (unfold k; lia).
  replace (skipn k l ++ [x]) with (skipn k (l ++ [x])).
  - rewrite skipn_skipn. f_equal. unfold k. lia.
  - rewrite skipn_app. replace (k - List.length l)%nat with 0%nat by lia.
    reflexivity.
Qed.

(** Appending a run of values one by one keeps the last [max_points] of
    everything appended so far. *)
Lemma fold_append_bounded (xs : list A) l :
  fold_left (fun h x => append_bounded x h) xs (slice_last max_points l)
  = slice_last max_points (l ++ xs).
Proof.
  revert l. induction xs as [| x xs IH]; intros l; simpl.
  - rewrite app_nil_r. reflexivity.
  - rewrite append_bounded_slice, slice_last_snoc, IH, <- app_assoc.
    reflexivity.
Qed.

Lemma append_bounded_full x l :
  List.length l = max_points -> append_bounded x l = tl l ++ [x].
Proof.
  intros H. rewrite append_bounded_slice. unfold slice_last.
  rewrite length_app, H. simpl.
  replace (max_points + 1 - max_points)%nat with 1%nat by lia.
  destruct l as [| y l]; [discriminate H | reflexivity].
Qed.
End Buffers.

Lemma md_get_record (new_data : reading) (md : monitoring) (m : metric) :
  md_get (fold_left (record_metric new_data) keys md) m
  = append_bounded (get new_data m) (md_get md m).
Proof. destruct md, m; reflexivity. Qed.

Lemma md_timestamps_record (new_data : reading) (md : monitoring) :
  md_timestamps (fold_left (record_metric new_data) keys md) = md_timestamps md.
Proof. destruct md; reflexivity. Qed.

(** The history of a metric after one tick. *)
Lemma history_after_tick current_time new_data st (m : metric) :
  md_get (monitoring_data (update_monitoring_data current_time new_data st)) m
  = append_bounded (get new_data m) (md_get (monitoring_data st) m).
Proof.
  unfold update_monitoring_data; cbn [monitoring_data].
  rewrite <- md_get_record. destruct m; reflexivity.
Qed.

Lemma timestamps_after_tick current_time new_data st :
  md_timestamps (monitoring_data (update_monitoring_data current_time new_data st))
  = append_bounded current_time (md_timestamps (monitoring_data st)).
Proof.
  unfold update_monitoring_data; cbn [monitoring_data md_set_timestamps md_timestamps].
  rewrite md_timestamps_record. reflexivity.
Qed.

(** The history of a metric after a run of ticks is the fold of the bounded
    append over the values sampled for that metric. *)
Lemma history_after_run ticks st (m : metric) :
  md_get (monitoring_data (run_ticks ticks st)) m
  = fold_left (fun h x => append_bounded x h)
              (map (fun tick => get (snd tick) m) ticks)
              (md_get (monitoring_data st) m).
Proof.
  unfold run_ticks. revert st.
  induction ticks as [| tick ticks IH]; intros st; simpl.
  - reflexivity.
  - rewrite IH, history_after_tick. reflexivity.
Qed.

(** C7: starting from an empty history of a metric, after 101 ticks the
    history holds exactly 100 values: those of the 2nd to the 101st tick,
    oldest first and newest last, the first tick's entry being gone; and any
    further append drops exactly the oldest entry. *)
Theorem history_eviction_after_101
    (ticks : list (datetime * reading)) (st : session_state) (m : metric) :
  md_get (monitoring_data st) m = [] ->
  List.length ticks = 101%nat ->
  let values := map (fun tick => get (snd tick) m) ticks in
  let history := md_get (monitoring_data (run_ticks ticks st)) m in
  List.length history = 100%nat
  /\ history = tl values
  /\ last history 0 = last values 0
  /\ (NoDup values -> ~ In (hd 0 values) history)
  /\ (forall x, append_bounded x history = tl history ++ [x]).
Proof.
  intros Hempty Hlen values history.
  assert (Hvals : List.length values = 101%nat)
    by (unfold values; rewrite length_map; exact Hlen).
  assert (Hh : history = tl values).
  { unfold history. rewrite history_after_run, Hempty. fold values.
    change (@nil Q) with (slice_last max_points (@nil Q)).
    rewrite fold_append_bounded. cbn [app]. unfold slice_last.
    rewrite Hvals. reflexivity. }
  destruct values as [| v0 rest] eqn:Ev; [discriminate Hvals |].
  cbn [tl] in Hh. cbn [List.length] in Hvals.
  assert (Hrest : List.length rest = 100%nat) by lia.
  rewrite Hh. repeat split.
  - exact Hrest.
  - destruct rest; [discriminate Hrest | reflexivity].
  - intros Hnd. cbn [hd]. inversion Hnd; assumption.
  - intros x. apply append_bounded_full. exact Hrest.
Qed.

Lemma history_eviction_after_101_witness :
  let ticks :=
    map (fun n => (Z.of_nat n, mkReading (inject_Z (Z.of_nat n)) 0 0 0))
        (seq 0 101) in
  let history :=
    md_get (monitoring_data (run_ticks ticks initial_state)) acoustic in
  List.length history = 100%nat
  /\ history = tl (map (fun tick => get (snd tick) acoustic) ticks).
Proof.
  intros ticks history.
  pose proof (history_eviction_after_101 ticks initial_state acoustic
                eq_refl eq_refl) as H.
  split; [exact (proj1 H) | exact (proj1 (proj2 H))].
Defined.

(** C9: when the five histories have one common length of at most 100, they
    still do after a tick; each list is then its former content with the new
    element appended, cut to its last 100 elements, so each length goes from
    n to min(n + 1, 100). *)
Theorem tick_preserves_aligned_histories
    (current_time : datetime) (new_data : reading) (st : session_state) :
  histories_aligned (monitoring_data st) ->
  let md := monitoring_data st in
  let md' :=
    monitoring_data (update_monitoring_data current_time new_data st) in
  histories_aligned md'
  /\ (forall m,
        md_get md' m
        = slice_last max_points (md_get md m ++ [get new_data m]))
  /\ md_timestamps md'
     = slice_last max_points (md_timestamps md ++ [current_time])
  /\ (forall m,
        List.length (md_get md' m)
        = Nat.min (S (List.length (md_get md m))) max_points)
  /\ List.length (md_timestamps md')
     = Nat.min (S (List.length (md_timestamps md))) max_points.
Proof.
  intros [Heq Hle] md md'. unfold md', md.
  split; [split |].
  - intros m.
    rewrite history_after_tick, timestamps_after_tick, !length_append_bounded.
    rewrite Heq. reflexivity.
  - rewrite timestamps_after_tick, length_append_bounded. lia.
  - split; [| split; [| split]].
    + intros m. rewrite history_after_tick. apply append_bounded_slice.
    + rewrite timestamps_after_tick. apply append_bounded_slice.
    + intros m. rewrite history_after_tick. apply length_append_bounded.
    + rewrite timestamps_after_tick. apply length_append_bounded.
Qed.

Lemma tick_preserves_aligned_histories_witness :
  let ticks :=
    map (fun n => (Z.of_nat n, mkReading (inject_Z (Z.of_nat n)) 0 25 60))
        (seq 0 100) in
  let st := run_ticks ticks initial_state in
  let md := monitoring_data st in
  let md' :=
    monitoring_data
      (update_monitoring_data 100%Z (mkReading 100 0 25 60) st) in
  List.length (md_get md acoustic) = 100%nat
  /\ histories_aligned md'
  /\ md_get md' acoustic
     = slice_last max_points (md_get md acoustic ++ [100])
  /\ List.length (md_get md' acoustic) = 100%nat.
Proof.
  intros ticks st md md'.
  assert (Hst : histories_aligned (monitoring_data st)).
  { split.
    - intros m. destruct m; vm_compute; reflexivity.
    - vm_compute. apply le_n. }
  pose proof (tick_preserves_aligned_histories 100%Z (mkReading 100 0 25 60)
                st Hst) as [Ha [Hm [_ [Hl _]]]].
  split; [vm_compute; reflexivity |].
  split; [exact Ha |].
  split; [exact (Hm acoustic) |].
  unfold md'. rewrite (Hl acoustic). vm_compute. reflexivity.
Defined.

(** * The alert log *)

Lemma alert_step_app current_time log item :
  alert_step current_time log item = emitted current_time item ++ log.
Proof.
  unfold emitted, alert_step. destruct item as [m value].
  destruct (Qgeb value (danger (THRESHOLDS m))); [reflexivity |].
  destruct (Qgeb value (warning (THRESHOLDS m))); reflexivity.
Qed.

Lemma emitted_length current_time item :
  (List.length (emitted current_time item) <= 1)%nat.
Proof.
  unfold emitted, alert_step. destruct item as [m value].
  destruct (Qgeb value (danger (THRESHOLDS m))); [simpl; lia |].
  destruct (Qgeb value (warning (THRESHOLDS m))); simpl; lia.
Qed.

(** The alert loop puts the alerts of later items in front of those of
    earlier items, and all of them in front of the prior log. *)
Lemma alert_loop current_time (l : list (metric * Q)) log :
  fold_left (alert_step current_time) l log
  = List.concat (rev (map (emitted current_time) l)) ++ log.
Proof.
  revert log. induction l as [| item l IH]; intros log; simpl.
  - reflexivity.
  - rewrite IH, alert_step_app, concat_app. simpl.
    rewrite app_nil_r, <- app_assoc. reflexivity.
Qed.

Lemma alerts_after_tick current_time new_data st :
  alerts (update_monitoring_data current_time new_data st)
  = emitted current_time (humidity, get new_data humidity)
    ++ emitted current_time (temperature, get new_data temperature)
    ++ emitted current_time (vibration, get new_data vibration)
    ++ emitted current_time (acoustic, get new_data acoustic)
    ++ alerts st.
Proof.
  unfold update_monitoring_data; cbn [alerts].
  rewrite alert_loop. unfold items, keys. cbn [map rev app List.concat].
  rewrite app_nil_r, <- !app_assoc. reflexivity.
Qed.

(** C5: after a tick the log is the tick's batch followed by the prior log;
    within the batch the alerts stand in reverse metric order, that of the
    first processed metric (acoustic) deepest. *)
Theorem tick_batch_prepended_in_reverse_metric_order
    (current_time : datetime) (new_data : reading) (st : session_state) :
  items new_data
    = [(acoustic, get new_data acoustic); (vibration, get new_data vibration);
       (temperature, get new_data temperature);
       (humidity, get new_data humidity)]
  /\ alerts (update_monitoring_data current_time new_data st)
     = (emitted current_time (humidity, get new_data humidity)
        ++ emitted current_time (temperature, get new_data temperature)
        ++ emitted current_time (vibration, get new_data vibration)
        ++ emitted current_time (acoustic, get new_data acoustic))
       ++ alerts st.
Proof.
  split; [reflexivity |].
  rewrite alerts_after_tick, <- !app_assoc. reflexivity.
Qed.

(** A reading whose four values all reach their danger levels. *)
Example all_danger_batch (current_time : datetime) (st : session_state) :
  alerts (update_monitoring_data current_time (mkReading 80 0.8 31 80) st)
  = [ mkAlert current_time "CRITICAL" "High humidity level detected: 80.0 %";
      mkAlert current_time "CRITICAL"
              ("High temperature level detected: 31.0 " ++ degree_sign ++ "C");
      mkAlert current_time "CRITICAL" "High vibration level detected: 0.8 g";
      mkAlert current_time "CRITICAL" "High acoustic level detected: 80.0 dB" ]
    ++ alerts st.
Proof. rewrite alerts_after_tick. reflexivity. Qed.

(** C8: a tick only prepends to the alert log: the prior log is a suffix of
    the new one, every record at its place and unchanged. *)
Theorem tick_keeps_prior_alerts
    (current_time : datetime) (new_data : reading) (st : session_state) :
  let log' := alerts (update_monitoring_data current_time new_data st) in
  (exists batch, (List.length batch <= 4)%nat /\ log' = batch ++ alerts st)
  /\ skipn (List.length log' - List.length (alerts st)) log' = alerts st
  /\ (forall i a, nth_error (alerts st) i = Some a ->
        nth_error log'
          (List.length log' - List.length (alerts st) + i) = Some a).
Proof.
  intros log'.
  assert (H : exists batch,
             (List.length batch <= 4)%nat /\ log' = batch ++ alerts st).
  { unfold log'. rewrite alerts_after_tick.
    exists (emitted current_time (humidity, get new_data humidity)
            ++ emitted current_time (temperature, get new_data temperature)
            ++ emitted current_time (vibration, get new_data vibration)
            ++ emitted current_time (acoustic, get new_data acoustic)).
    split.
    - rewrite !length_app.
      pose proof (emitted_length current_time (humidity, get new_data humidity)).
      pose proof (emitted_length current_time
                    (temperature, get new_data temperature)).
      pose proof (emitted_length current_time
                    (vibration, get new_data vibration)).
      pose proof (emitted_length current_time
                    (acoustic, get new_data acoustic)).
      lia.
    - rewrite <- !app_assoc. reflexivity. }
  split; [exact H |].
  destruct H as [batch [_ Hb]]. rewrite Hb, length_app.
  replace (List.length batch + List.length (alerts st)
           - List.length (alerts st))%nat
    with (List.length batch) by lia.
  split.
  - rewrite skipn_app, skipn_all, Nat.sub_diag. reflexivity.
  - intros i a Hi. rewrite nth_error_app2 by lia.
    replace (List.length batch + i - List.length batch)%nat with i by lia.
    exact Hi.
Qed.

(** C6: the end-to-end example. *)
Theorem end_to_end_example (current_time : datetime) (st : session_state) :
  let new_data := mkReading 80 0.2 25 60 in
  alerts (update_monitoring_data current_time new_data st)
    = mkAlert current_time "CRITICAL" "High acoustic level detected: 80.0 dB"
      :: alerts st
  /\ calculate_health_score new_data == 70
  /\ Binary64.calculate_health_score (Binary64.mkFReading 80 0.2 25 60)
     = 70%float.
Proof.
  intros new_data. split; [| split].
  - unfold new_data. rewrite alerts_after_tick. reflexivity.
  - reflexivity.
  - vm_compute. reflexivity.
Qed.

(** * Clear Data *)

(** C10: Clear Data empties the five histories and leaves the alert log and
    the reports as they were. *)
Theorem clear_data_empties_histories_only (st : session_state) :
  monitoring_data (clear_data st) = mkMonitoring [] [] [] [] []
  /\ (forall m, md_get (monitoring_data (clear_data st)) m = [])
  /\ md_timestamps (monitoring_data (clear_data st)) = []
  /\ alerts (clear_data st) = alerts st
  /\ reports (clear_data st) = reports st.
Proof.
  destruct st as [md active reps log]. destruct md.
  repeat split. intros m; destruct m; reflexivity.
Qed.

Lemma tick_keeps_prior_alerts_witness :
  let prior := mkAlert 0%Z "WARNING" "Elevated humidity level: 70.0 %" in
  let st := mkState (mkMonitoring [] [] [] [] []) true [] [prior] in
  nth_error
    (alerts (update_monitoring_data 1%Z (mkReading 80 0.2 25 60) st)) 1
  = Some prior.
Proof.
  intros prior st.
  apply (proj2 (proj2 (tick_keeps_prior_alerts 1%Z (mkReading 80 0.2 25 60) st))
           0%nat prior).
  reflexivity.
Defined.

(** * Binary64 checks at the corners of the configured ranges *)

Example binary64_best_reading :
  Binary64.calculate_health_score (Binary64.mkFReading 40 0 25 60) = 100%float.
Proof. vm_compute. reflexivity. Qed.

Example binary64_worst_reading :
  PrimFloat.leb 0
    (Binary64.calculate_health_score (Binary64.mkFReading 90 1 35 90)) = true.
Proof. vm_compute. reflexivity. Qed.

(** * Sampling and the shape of the health score *)

(** Every value sampled by [generate_sensor_data] from draws of the unit
    interval lies in the configured range of its metric. *)
Theorem generated_reading_in_range (u : metric -> Q) :
  (forall m, 0 <= u m <= 1) ->
  forall m,
    min (THRESHOLDS m) <= get (generate_sensor_data u) m <= max (THRESHOLDS m).
Proof.
  intros Hu m. destruct (Hu m) as [H0 H1].
  destruct m;
    cbn [generate_sensor_data get r_acoustic r_vibration r_temperature
         r_humidity THRESHOLDS min max];
    unfold uniform; split; lra.
Qed.

Lemma generated_reading_in_range_witness :
  min (THRESHOLDS temperature)
  <= get (generate_sensor_data (fun _ => 0.5)) temperature
  <= max (THRESHOLDS temperature).
Proof.
  apply (generated_reading_in_range (fun _ => 0.5)).
  intros m; split; unfold Qle; simpl; lia.
Defined.

(** Bounds of the score of an in-range reading, shared by the results
    below. *)
Lemma in_range_score_bounds (data : reading) :
  (forall m, min (THRESHOLDS m) <= get data m <= max (THRESHOLDS m)) ->
  (35 # 3) <= calculate_health_score data <= 100.
Proof.
  intros Hr.
  pose proof (Hr acoustic) as [Ha1 Ha2].
  pose proof (Hr vibration) as [Hv1 Hv2].
  pose proof (Hr temperature) as [Ht1 Ht2].
  pose proof (Hr humidity) as [Hh1 Hh2].
  destruct data as [a v t h].
  cbn [get r_acoustic r_vibration r_temperature r_humidity THRESHOLDS min max]
    in *.
  assert (Ht : Qabs (t - 25) <= 10)
    by (apply (Qabs_centre_bound t 20 35); lra).
  assert (Hh : Qabs (h - 60) <= 30)
    by (apply (Qabs_centre_bound h 30 90); lra).
  pose proof (Qabs_nonneg (t - 25)) as Ht0.
  pose proof (Qabs_nonneg (h - 60)) as Hh0.
  score_unfold. unfold Qdiv.
  change (/ (90 - 40)) with (1 # 50).
  change (/ 15) with (1 # 15).
  change (/ 40) with (1 # 40).
  generalize dependent (Qabs (t - 25)); intros gt Ht Ht0.
  generalize dependent (Qabs (h - 60)); intros gh Hh Hh0.
  split; lra.
Qed.

(** The score of a sampled reading never drops below 35/3: the gauge of a
    sampled reading stays within [[35/3, 100]]. *)
Theorem generated_score_bounds (u : metric -> Q) :
  (forall m, 0 <= u m <= 1) ->
  (35 # 3) <= calculate_health_score (generate_sensor_data u) <= 100.
Proof.
  intros Hu. apply in_range_score_bounds.
  intros m. destruct (Hu m) as [H0 H1].
  destruct m;
    cbn [generate_sensor_data get r_acoustic r_vibration r_temperature
         r_humidity THRESHOLDS min max];
    unfold uniform; split; lra.
Qed.

Lemma generated_score_bounds_witness :
  (35 # 3)
  <= calculate_health_score (generate_sensor_data (fun _ => 0.25)) <= 100.
Proof.
  apply (generated_score_bounds (fun _ => 0.25)).
  intros m; split; unfold Qle; simpl; lia.
Defined.

(** The score never rises when the acoustic level or the vibration rises,
    and it is not clamped: with the acoustic level at 40 or more and a
    vibration of 4 or more it is negative, whatever the other values are. *)
Theorem health_score_monotone_unclamped (a a' v v' t h : Q) :
  (a <= a' -> v <= v' ->
   calculate_health_score (mkReading a' v' t h)
   <= calculate_health_score (mkReading a v t h))
  /\ (40 <= a -> 4 <= v -> calculate_health_score (mkReading a v t h) < 0).
Proof.
  pose proof (Qabs_nonneg (t - 25)) as Ht0.
  pose proof (Qabs_nonneg (h - 60)) as Hh0.
  score_unfold. unfold Qdiv.
  change (/ (90 - 40)) with (1 # 50).
  change (/ 15) with (1 # 15).
  change (/ 40) with (1 # 40).
  generalize dependent (Qabs (t - 25)); intros gt Ht0.
  generalize dependent (Qabs (h - 60)); intros gh Hh0.
  split; intros H1 H2; lra.
Qed.

Lemma health_score_monotone_unclamped_witness :
  calculate_health_score (mkReading 60 0.5 25 60)
  <= calculate_health_score (mkReading 50 0.25 25 60)
  /\ calculate_health_score (mkReading 50 5 25 60) < 0.
Proof.
  split.
  - apply (health_score_monotone_unclamped 50 60 0.25 0.5 25 60);
      unfold Qle; simpl; lia.
  - apply (health_score_monotone_unclamped 50 50 5 5 25 60);
      unfold Qle; simpl; lia.
Defined.

(** The score depends on temperature and humidity only through their
    distances to 25 and 60. *)
Theorem health_score_symmetric (a v dt dh : Q) :
  calculate_health_score (mkReading a v (25 + dt) (60 + dh))
  == calculate_health_score (mkReading a v (25 - dt) (60 - dh)).
Proof.
  score_unfold.
  assert (Et : Qabs (25 + dt - 25) == Qabs (25 - dt - 25)).
  { setoid_replace (25 - dt - 25) with (- (25 + dt - 25)) by ring.
    rewrite Qabs_opp. reflexivity. }
  assert (Eh : Qabs (60 + dh - 60) == Qabs (60 - dh - 60)).
  { setoid_replace (60 - dh - 60) with (- (60 + dh - 60)) by ring.
    rewrite Qabs_opp. reflexivity. }
  rewrite Et, Eh. reflexivity.
Qed.

(** * Status colours, the Overview tab and the charts *)

(** The status colour of a value agrees with the alert the tick raises for
    it: danger with the CRITICAL alert, warning with the WARNING alert, good
    with no alert. *)
Theorem status_matches_alert
    (current_time : datetime) (m : metric) (value : Q) :
  (get_status_color value m = "danger"%string
   <-> emitted current_time (m, value) = [critical_alert current_time m value])
  /\ (get_status_color value m = "warning"%string
      <-> emitted current_time (m, value)
          = [warning_alert current_time m value])
  /\ (get_status_color value m = "good"%string
      <-> emitted current_time (m, value) = []).
Proof.
  unfold get_status_color, emitted, alert_step.
  destruct (Qgeb value (danger (THRESHOLDS m)));
    [| destruct (Qgeb value (warning (THRESHOLDS m)))];
    repeat split; intros H; try reflexivity; discriminate H.
Qed.

Section LastItem.
Context {A : Type}.

Lemma last_item_snoc (l : list A) (x : A) : last_item (l ++ [x]) = Some x.
Proof. unfold last_item. rewrite rev_app_distr. reflexivity. Qed.

Lemma last_item_skipn (k : nat) (l : list A) (x : A) :
  (k <= List.length l)%nat -> last_item (skipn k (l ++ [x])) = Some x.
Proof.
  intros Hk. rewrite skipn_app.
  replace (k - List.length l)%nat with 0%nat by lia.
  apply last_item_snoc.
Qed.

Lemma last_item_append_bounded (l : list A) (x : A) :
  last_item (append_bounded x l) = Some x.
Proof.
  rewrite append_bounded_slice. unfold slice_last.
  apply last_item_skipn. rewrite length_app. cbn [List.length].
  unfold max_points. lia.
Qed.

Lemma last_item_nonempty (l : list A) :
  l <> [] -> exists x, last_item l = Some x.
Proof.
  intros Hl. destruct (exists_last Hl) as [l' [x E]]. subst l.
  exists x. apply last_item_snoc.
Qed.
End LastItem.

Lemma append_bounded_nonempty {A : Type} (x : A) (l : list A) :
  append_bounded x l <> [].
Proof.
  intros E. pose proof (last_item_append_bounded l x) as H.
  rewrite E in H. discriminate H.
Qed.

(** After a tick the Overview tab shows the gauge of the reading just
    sampled, with its score and its four status colours: neither the waiting
    notice nor an index error. *)
Theorem overview_after_tick
    (current_time : datetime) (new_data : reading) (st : session_state) :
  overview_tab (update_monitoring_data current_time new_data st)
  = Gauge new_data (calculate_health_score new_data)
          (fun m => get_status_color (get new_data m) m).
Proof.
  unfold overview_tab.
  set (st' := update_monitoring_data current_time new_data st).
  assert (Hm : forall m,
             md_get (monitoring_data st') m
             = append_bounded (get new_data m) (md_get (monitoring_data st) m))
    by (intros m; apply history_after_tick).
  assert (Hl : latest_data (monitoring_data st') = Some new_data).
  { unfold latest_data.
    pose proof (Hm acoustic) as Ha. pose proof (Hm vibration) as Hv.
    pose proof (Hm temperature) as Ht. pose proof (Hm humidity) as Hh.
    cbn [md_get] in Ha, Hv, Ht, Hh.
    rewrite Ha, Hv, Ht, Hh, !last_item_append_bounded.
    destruct new_data; reflexivity. }
  pose proof (Hm acoustic) as Ha. cbn [md_get] in Ha.
  destruct (md_acoustic (monitoring_data st')) eqn:E.
  - exfalso. symmetry in Ha. exact (append_bounded_nonempty _ _ Ha).
  - rewrite Hl. reflexivity.
Qed.

(** With aligned histories the Overview tab never fails on [[-1]]. *)
Lemma overview_of_aligned (st : session_state) :
  histories_aligned (monitoring_data st) -> overview_tab st <> IndexError.
Proof.
  intros [Heq _]. unfold overview_tab.
  destruct (md_acoustic (monitoring_data st)) as [| a0 la] eqn:Ea;
    [discriminate |].
  assert (Hne : forall m, md_get (monitoring_data st) m <> []).
  { intros m E.
    pose proof (Heq m) as H1. pose proof (Heq acoustic) as H2.
    cbn [md_get] in H2. rewrite Ea in H2. rewrite E in H1.
    cbn [List.length] in H1, H2. lia. }
  unfold latest_data.
  destruct (last_item_nonempty _ (Hne acoustic)) as [a Ha].
  destruct (last_item_nonempty _ (Hne vibration)) as [v Hv].
  destruct (last_item_nonempty _ (Hne temperature)) as [t Ht].
  destruct (last_item_nonempty _ (Hne humidity)) as [h Hh].
  cbn [md_get] in Ha, Hv, Ht, Hh.
  rewrite Ha, Hv, Ht, Hh. discriminate.
Qed.

Lemma timestamps_after_run ticks st :
  md_timestamps (monitoring_data (run_ticks ticks st))
  = fold_left (fun h x => append_bounded x h) (map fst ticks)
              (md_timestamps (monitoring_data st)).
Proof.
  unfold run_ticks. revert st.
  induction ticks as [| tick ticks IH]; intros st; simpl.
  - reflexivity.
  - rewrite IH, timestamps_after_tick. reflexivity.
Qed.

Lemma combine_skipn {A B : Type} (k : nat) (xs : list A) (ys : list B) :
  combine (skipn k xs) (skipn k ys) = skipn k (combine xs ys).
Proof.
  revert xs ys. induction k as [| k IH]; intros xs ys.
  - reflexivity.
  - destruct xs as [| x xs]; [reflexivity |].
    destruct ys as [| y ys]; cbn [skipn combine].
    + apply combine_nil.
    + apply IH.
Qed.

(** Any number of ticks after a start with empty histories: the timestamps
    and the history of a metric are the last 100 sampled, and they pair up
    point by point, so a chart trace plots the last 100 (time, value) samples
    in the order they were taken. *)
Theorem chart_trace_after_ticks
    (ticks : list (datetime * reading)) (st : session_state) (m : metric) :
  monitoring_data st = mkMonitoring [] [] [] [] [] ->
  let md := monitoring_data (run_ticks ticks st) in
  md_timestamps md = slice_last max_points (map fst ticks)
  /\ md_get md m
     = slice_last max_points (map (fun tick => get (snd tick) m) ticks)
  /\ List.length (md_get md m) = Nat.min (List.length ticks) max_points
  /\ combine (md_timestamps md) (md_get md m)
     = slice_last max_points
         (map (fun tick => (fst tick, get (snd tick) m)) ticks).
Proof.
  intros Hempty md.
  assert (Ht : md_timestamps md = slice_last max_points (map fst ticks)).
  { unfold md. rewrite timestamps_after_run, Hempty. cbn [md_timestamps].
    change (@nil datetime) with (slice_last max_points (@nil datetime)).
    rewrite fold_append_bounded. reflexivity. }
  assert (Hv : md_get md m
               = slice_last max_points
                   (map (fun tick => get (snd tick) m) ticks)).
  { unfold md. rewrite history_after_run, Hempty.
    replace (md_get (mkMonitoring [] [] [] [] []) m)
      with (slice_last max_points (@nil Q)) by (destruct m; reflexivity).
    rewrite fold_append_bounded. reflexivity. }
  split; [exact Ht |]. split; [exact Hv |]. split.
  - rewrite Hv, length_slice_last, length_map. reflexivity.
  - rewrite Ht, Hv. unfold slice_last. rewrite !length_map.
    rewrite combine_skipn.
    replace (combine (map fst ticks)
                     (map (fun tick => get (snd tick) m) ticks))
      with (map (fun tick => (fst tick, get (snd tick) m)) ticks).
    + reflexivity.
    + clear. induction ticks as [| tick ticks IH]; [reflexivity |].
      cbn [map combine]. rewrite IH. reflexivity.
Qed.

Lemma chart_trace_after_ticks_witness :
  let ticks :=
    map (fun n => (Z.of_nat n, mkReading 50 0 25 (inject_Z (Z.of_nat n))))
        (seq 0 103) in
  let md := monitoring_data (run_ticks ticks initial_state) in
  combine (md_timestamps md) (md_get md humidity)
  = slice_last max_points
      (map (fun tick => (fst tick, get (snd tick) humidity)) ticks).
Proof.
  intros ticks md.
  exact (proj2 (proj2 (proj2
           (chart_trace_after_ticks ticks initial_state humidity eq_refl)))).
Defined.

(** * Runs of the script *)

Lemma sidebar_toggle_fields (toggle : bool) (st : session_state) :
  monitoring_data (sidebar_toggle toggle st) = monitoring_data st
  /\ monitoring_active (sidebar_toggle toggle st) = toggle
  /\ reports (sidebar_toggle toggle st) = reports st
  /\ alerts (sidebar_toggle toggle st) = alerts st.
Proof.
  unfold sidebar_toggle.
  destruct toggle, (monitoring_active st) eqn:E; cbn; auto.
Qed.

Lemma after_sidebar_fields (i : inputs) (st : session_state) :
  monitoring_active (after_sidebar i st) = in_toggle i
  /\ reports (after_sidebar i st) = reports st
  /\ alerts (after_sidebar i st) = alerts st
  /\ monitoring_data (after_sidebar i st)
     = if in_clear i then mkMonitoring [] [] [] [] [] else monitoring_data st.
Proof.
  unfold after_sidebar.
  destruct (sidebar_toggle_fields (in_toggle i) st) as [Hd [Ha [Hr Hl]]].
  destruct (in_clear i).
  - unfold clear_data; cbn [monitoring_active reports alerts monitoring_data].
    repeat split; assumption.
  - repeat split; assumption.
Qed.

Lemma aligned_after_tick current_time new_data st :
  histories_aligned (monitoring_data st) ->
  histories_aligned
    (monitoring_data (update_monitoring_data current_time new_data st)).
Proof.
  intros [Heq Hle]. split.
  - intros m.
    rewrite history_after_tick, timestamps_after_tick, !length_append_bounded.
    rewrite Heq. reflexivity.
  - rewrite timestamps_after_tick, length_append_bounded. lia.
Qed.

Lemma aligned_empty : histories_aligned (mkMonitoring [] [] [] [] []).
Proof. split; [intros m; destruct m; reflexivity | cbn; lia]. Qed.

Lemma aligned_after_sidebar (i : inputs) (st : session_state) :
  histories_aligned (monitoring_data st) ->
  histories_aligned (monitoring_data (after_sidebar i st)).
Proof.
  intros H. destruct (after_sidebar_fields i st) as [_ [_ [_ Hd]]].
  rewrite Hd. destruct (in_clear i); [apply aligned_empty | exact H].
Qed.

Lemma aligned_after_script_run (i : inputs) (st : session_state) :
  histories_aligned (monitoring_data st) ->
  histories_aligned (monitoring_data (script_run i st)).
Proof.
  intros H. apply (aligned_after_sidebar i) in H. unfold script_run.
  set (st3 := match in_report i with
              | Some r => submit_report r (after_sidebar i st)
              | None => after_sidebar i st
              end).
  assert (H3 : histories_aligned (monitoring_data st3))
    by (unfold st3; destruct (in_report i); exact H).
  destruct (monitoring_active st3); [apply aligned_after_tick |]; exact H3.
Qed.

(** Whatever the widgets, the clock and the samples of a sequence of runs
    from the initial state are, the five histories stay aligned, and the
    Overview tab, drawn after the sidebar of the next run, never fails on
    an empty history. *)
Theorem runs_keep_overview_safe (runs : list inputs) (next : inputs) :
  let st := run_script runs initial_state in
  histories_aligned (monitoring_data st)
  /\ overview_tab (after_sidebar next st) <> IndexError.
Proof.
  intros st.
  assert (H : histories_aligned (monitoring_data st)).
  { unfold st, run_script.
    assert (G : forall s, histories_aligned (monitoring_data s) ->
              histories_aligned
                (monitoring_data (fold_left (fun s i => script_run i s) runs s))).
    { induction runs as [| i runs IH]; intros s Hs; cbn [fold_left].
      - exact Hs.
      - apply IH, aligned_after_script_run, Hs. }
    apply G. apply aligned_empty. }
  split; [exact H |].
  apply overview_of_aligned, aligned_after_sidebar, H.
Qed.

(** Pressing Clear Data while monitoring is active: the tabs of that run
    show the waiting notice, and the run ends with exactly the one new sample
    in every history. *)
Theorem clear_while_active (i : inputs) (st : session_state) :
  in_clear i = true -> in_toggle i = true ->
  overview_tab (after_sidebar i st) = Waiting
  /\ realtime_trace (after_sidebar i st) acoustic = None
  /\ monitoring_data (script_run i st)
     = mkMonitoring [r_acoustic (in_sample i)] [r_vibration (in_sample i)]
                    [r_temperature (in_sample i)] [r_humidity (in_sample i)]
                    [in_time i].
Proof.
  intros Hc Ht.
  destruct (after_sidebar_fields i st) as [Ha [_ [_ Hd]]].
  rewrite Hc in Hd. rewrite Ht in Ha.
  split; [| split].
  - unfold overview_tab. rewrite Hd. reflexivity.
  - unfold realtime_trace. rewrite Hd. reflexivity.
  - unfold script_run.
    set (st3 := match in_report i with
                | Some r => submit_report r (after_sidebar i st)
                | None => after_sidebar i st
                end).
    assert (H3 : monitoring_active st3 = true
                 /\ monitoring_data st3 = mkMonitoring [] [] [] [] [])
      by (unfold st3; destruct (in_report i); split; assumption).
    destruct H3 as [H3a H3d]. rewrite H3a.
    unfold update_monitoring_data. cbn [monitoring_data]. rewrite H3d.
    reflexivity.
Qed.

Lemma clear_while_active_witness :
  let i := mkInputs true true None 7%Z (mkReading 80 0.2 25 60) in
  monitoring_data (script_run i initial_state)
  = mkMonitoring [80] [0.2] [25] [60] [7%Z].
Proof.
  intros i.
  exact (proj2 (proj2 (clear_while_active i initial_state eq_refl eq_refl))).
Defined.

(** A run with the toggle off takes no sample: the alert log is unchanged,
    and the histories are unchanged unless Clear Data was pressed. *)
Theorem paused_run_takes_no_sample (i : inputs) (st : session_state) :
  in_toggle i = false ->
  alerts (script_run i st) = alerts st
  /\ monitoring_active (script_run i st) = false
  /\ (in_clear i = false ->
      monitoring_data (script_run i st) = monitoring_data st).
Proof.
  intros Ht.
  destruct (after_sidebar_fields i st) as [Ha [_ [Hl Hd]]].
  rewrite Ht in Ha. unfold script_run.
  set (st3 := match in_report i with
              | Some r => submit_report r (after_sidebar i st)
              | None => after_sidebar i st
              end).
  assert (H3 : monitoring_active st3 = false
               /\ alerts st3 = alerts st
               /\ monitoring_data st3 = monitoring_data (after_sidebar i st))
    by (unfold st3; destruct (in_report i); repeat split; assumption).
  destruct H3 as [H3a [H3l H3d]]. rewrite H3a.
  repeat split; try assumption.
  intros Hc. rewrite H3d, Hd, Hc. reflexivity.
Qed.

Lemma paused_run_takes_no_sample_witness :
  let st :=
    update_monitoring_data 1%Z (mkReading 80 0.2 25 60) initial_state in
  let i := mkInputs false false None 2%Z (mkReading 90 1 35 90) in
  alerts (script_run i st) = alerts st
  /\ monitoring_data (script_run i st) = monitoring_data st.
Proof.
  intros st i.
  pose proof (paused_run_takes_no_sample i st eq_refl) as H.
  split; [exact (proj1 H) | exact (proj2 (proj2 H) eq_refl)].
Defined.

(** * The alert log over runs *)

(** Every record the loop body adds carries the tick's time and one of the
    two types. *)
Lemma emitted_records current_time item :
  Forall (fun a => a_time a = current_time
                   /\ (a_type a = "CRITICAL"%string
                       \/ a_type a = "WARNING"%string))
         (emitted current_time item).
Proof.
  unfold emitted, alert_step. destruct item as [m value].
  destruct (Qgeb value (danger (THRESHOLDS m)));
    [| destruct (Qgeb value (warning (THRESHOLDS m)))].
  - constructor; [split; [reflexivity | left; reflexivity] | constructor].
  - constructor; [split; [reflexivity | right; reflexivity] | constructor].
  - constructor.
Qed.

(** The effect of one run on the log and on the reports. *)
Lemma script_run_log (i : inputs) (st : session_state) :
  exists batch new_reports,
    alerts (script_run i st) = batch ++ alerts st
    /\ reports (script_run i st) = reports st ++ new_reports
    /\ (List.length batch <= 4)%nat
    /\ Forall (fun a => a_time a = in_time i
                        /\ (a_type a = "CRITICAL"%string
                            \/ a_type a = "WARNING"%string)) batch.
Proof.
  destruct (after_sidebar_fields i st) as [_ [Hr [Hl _]]].
  unfold script_run.
  set (st3 := match in_report i with
              | Some r => submit_report r (after_sidebar i st)
              | None => after_sidebar i st
              end).
  assert (H3 : alerts st3 = alerts st
               /\ exists new_reports, reports st3 = reports st ++ new_reports).
  { unfold st3. destruct (in_report i) as [r |];
      cbn [submit_report alerts reports]; rewrite Hr; split; try assumption.
    - exists [r]. reflexivity.
    - exists []. rewrite app_nil_r. reflexivity. }
  destruct H3 as [H3l [new_reports H3r]].
  destruct (monitoring_active st3).
  - exists (emitted (in_time i) (humidity, get (in_sample i) humidity)
            ++ emitted (in_time i) (temperature, get (in_sample i) temperature)
            ++ emitted (in_time i) (vibration, get (in_sample i) vibration)
            ++ emitted (in_time i) (acoustic, get (in_sample i) acoustic)),
           new_reports.
    split; [| split; [| split]].
    + rewrite alerts_after_tick, H3l, <- !app_assoc. reflexivity.
    + exact H3r.
    + rewrite !length_app.
      pose proof (emitted_length (in_time i)
                    (humidity, get (in_sample i) humidity)).
      pose proof (emitted_length (in_time i)
                    (temperature, get (in_sample i) temperature)).
      pose proof (emitted_length (in_time i)
                    (vibration, get (in_sample i) vibration)).
      pose proof (emitted_length (in_time i)
                    (acoustic, get (in_sample i) acoustic)).
      lia.
    + repeat (apply Forall_app; split); apply emitted_records.
  - exists [], new_reports. repeat split; try assumption.
    + cbn [List.length]. lia.
    + constructor.
Qed.

(** No run removes or alters an alert or a report: after any sequence of
    runs the prior log is a suffix of the log and the prior reports are a
    prefix of the reports; the log grows by at most four records per run. *)
Theorem runs_only_add_records (runs : list inputs) (st : session_state) :
  exists new_alerts new_reports,
    alerts (run_script runs st) = new_alerts ++ alerts st
    /\ reports (run_script runs st) = reports st ++ new_reports
    /\ (List.length new_alerts <= 4 * List.length runs)%nat.
Proof.
  unfold run_script. revert st.
  induction runs as [| i runs IH]; intros st; cbn [fold_left].
  - exists [], []. rewrite app_nil_r. repeat split. cbn. lia.
  - destruct (IH (script_run i st)) as [na [nr [Ha [Hr Hn]]]].
    destruct (script_run_log i st) as [batch [reps [Hb [Hp [Hl _]]]]].
    exists (na ++ batch), (reps ++ nr).
    rewrite Ha, Hr, Hb, Hp, <- !app_assoc. repeat split.
    rewrite length_app. cbn [List.length]. lia.
Qed.

Lemma Forall_shown {A : Type} (P : A -> Prop) (n : nat) (l : list A) :
  Forall P l -> Forall P (firstn n l).
Proof.
  intros H. rewrite <- (firstn_skipn n l) in H.
  apply Forall_app in H. exact (proj1 H).
Qed.

(** Every record of a log built by runs from the initial state has type
    CRITICAL or WARNING, so the Alerts tab never shows the third, neutral
    banner. *)
Theorem alerts_tab_never_neutral (runs : list inputs) :
  Forall (fun a => a_type a = "CRITICAL"%string \/ a_type a = "WARNING"%string)
         (alerts (run_script runs initial_state))
  /\ Forall (fun shown => fst shown <> InfoBanner)
            (alerts_tab (run_script runs initial_state)).
Proof.
  assert (G : forall st,
             Forall (fun a => a_type a = "CRITICAL"%string
                              \/ a_type a = "WARNING"%string) (alerts st) ->
             Forall (fun a => a_type a = "CRITICAL"%string
                              \/ a_type a = "WARNING"%string)
                    (alerts (run_script runs st))).
  { unfold run_script.
    induction runs as [| i runs IH]; intros st Hst; cbn [fold_left].
    - exact Hst.
    - apply IH.
      destruct (script_run_log i st) as [batch [reps [Hb [_ [_ Hf]]]]].
      rewrite Hb. apply Forall_app. split; [| exact Hst].
      eapply Forall_impl; [| exact Hf]. intros a [_ Ha]. exact Ha. }
  assert (H : Forall (fun a => a_type a = "CRITICAL"%string
                               \/ a_type a = "WARNING"%string)
                     (alerts (run_script runs initial_state)))
    by (apply G; constructor).
  split; [exact H |].
  unfold alerts_tab. apply Forall_map.
  eapply Forall_impl; [| apply Forall_shown; exact H].
  intros a [Ha | Ha]; unfold alert_banner; cbn [fst]; rewrite Ha; discriminate.
Qed.

Lemma newest_first_prepend (t : datetime) (batch log : list alert) :
  Forall (fun a => a_time a = t) batch ->
  Forall (fun a => (a_time a <= t)%Z) log ->
  newest_first log ->
  newest_first (batch ++ log)
  /\ Forall (fun a => (a_time a <= t)%Z) (batch ++ log).
Proof.
  intros Hb Hl Hs. unfold newest_first in *.
  induction batch as [| b batch IH]; cbn [app].
  - split; assumption.
  - inversion Hb as [| ? ? Hbt Hb']; subst.
    destruct (IH Hb') as [IH1 IH2].
    split.
    + constructor; [exact IH1 |].
      eapply Forall_impl; [| exact IH2].
      intros a Ha. cbn beta. exact Ha.
    + constructor; [lia | exact IH2].
Qed.

(** When the clock does not run backwards from one run to the next, the
    log is at all times ordered newest first. *)
Theorem log_newest_first (runs : list inputs) :
  StronglySorted Z.le (map in_time runs) ->
  newest_first (alerts (run_script runs initial_state)).
Proof.
  assert (G : forall st,
             StronglySorted Z.le (map in_time runs) ->
             newest_first (alerts st) ->
             (forall i, In i runs ->
                Forall (fun a => (a_time a <= in_time i)%Z) (alerts st)) ->
             newest_first (alerts (run_script runs st))).
  { unfold run_script.
    induction runs as [| i runs IH]; intros st Hc Hs Hb; cbn [fold_left].
    - exact Hs.
    - cbn [map] in Hc. inversion Hc as [| ? ? Hc' Hi]; subst.
      destruct (script_run_log i st) as [batch [reps [Ha [_ [_ Hf]]]]].
      assert (Hbt : Forall (fun a => a_time a = in_time i) batch)
        by (eapply Forall_impl; [| exact Hf]; intros a [Ht _]; exact Ht).
      destruct (newest_first_prepend (in_time i) batch (alerts st) Hbt
                  (Hb i (or_introl eq_refl)) Hs) as [Hs' Hb'].
      apply IH; [exact Hc' | rewrite Ha; exact Hs' |].
      intros j Hj. rewrite Ha.
      eapply Forall_impl; [| exact Hb'].
      intros a Hle. cbn beta in Hle.
      assert (Hij : (in_time i <= in_time j)%Z).
      { rewrite Forall_forall in Hi. apply Hi. apply in_map. exact Hj. }
      lia. }
  intros Hc. apply G; [exact Hc | constructor |].
  intros i _. constructor.
Qed.

Lemma log_newest_first_witness :
  newest_first
    (alerts
       (run_script
          [ mkInputs true false None 1%Z (mkReading 80 0.8 31 80);
            mkInputs true false None 1%Z (mkReading 70 0.2 25 60);
            mkInputs true true None 5%Z (mkReading 80 0.6 25 60) ]
          initial_state)).
Proof.
  apply (log_newest_first
           [ mkInputs true false None 1%Z (mkReading 80 0.8 31 80);
             mkInputs true false None 1%Z (mkReading 70 0.2 25 60);
             mkInputs true true None 5%Z (mkReading 80 0.6 25 60) ]).
  cbn [map in_time].
  repeat constructor; lia.
Defined.

(** * Reports, and the gauge against the alerts *)

(** A report submitted in a run is kept behind all earlier reports and is
    listed first under Recent Reports, the earlier ones following in their
    previous order; the tick of the same run does not touch it. *)
Theorem submitted_report_listed_first
    (i : inputs) (r : report) (st : session_state) :
  in_report i = Some r ->
  reports (script_run i st) = reports st ++ [r]
  /\ recent_reports (script_run i st) = r :: recent_reports st.
Proof.
  intros Hr.
  destruct (after_sidebar_fields i st) as [_ [Hrep _]].
  assert (H : reports (script_run i st) = reports st ++ [r]).
  { unfold script_run. rewrite Hr.
    destruct (monitoring_active (submit_report r (after_sidebar i st)));
      cbn [update_monitoring_data submit_report reports]; rewrite Hrep;
      reflexivity. }
  split; [exact H |].
  unfold recent_reports. rewrite H, rev_app_distr. reflexivity.
Qed.

Lemma submitted_report_listed_first_witness :
  let earlier := mkReport "Inspection" "Rail joint" "Checked" "Low" 3%Z in
  let r := mkReport "Incident" "Noise" "Loud at platform 2" "High" 9%Z in
  let st := submit_report earlier initial_state in
  let i := mkInputs true false (Some r) 9%Z (mkReading 80 0.2 25 60) in
  recent_reports (script_run i st) = [r; earlier].
Proof.
  intros earlier r st i.
  exact (proj2 (submitted_report_listed_first i r st eq_refl)).
Defined.



(** The cap is met, and the other two metrics do not give one: a CRITICAL
    temperature alert goes with a score above 80. *)
Example critical_temperature_in_green_band :
  emitted 0%Z (temperature, 30) = [critical_alert 0%Z temperature 30]
  /\ calculate_health_score (mkReading 40 0 30 60) == 280 # 3
  /\ calculate_health_score (mkReading 75 0 25 60) == 79.
Proof. repeat split. Qed.

(** * Binary64: the health score *)











(** * Binary64: the alerts of a tick *)

Ltac cmp_cases :=
  repeat match goal with
  | |- context [Z.compare ?a ?b] => destruct (Z.compare_spec a b)
  | H : context [Z.compare ?a ?b] |- _ => destruct (Z.compare_spec a b)
  | |- context [Pos.compare_cont Eq ?a ?b] =>
      change (Pos.compare_cont Eq a b) with (Pos.compare a b);
      destruct (Pos.compare_spec a b)
  | H : context [Pos.compare_cont Eq ?a ?b] |- _ =>
      change (Pos.compare_cont Eq a b) with (Pos.compare a b) in H;
      destruct (Pos.compare_spec a b)
  end.

Lemma SFcompare_lt_gt (x y : spec_float) :
  SFcompare x y = Some Lt -> SFcompare y x = Some Gt.
Proof.
  destruct x as [sx | sx | | sx mx ex], y as [sy | sy | | sy my ey];
    try destruct sx; try destruct sy; cbn; try congruence;
    intros H; cmp_cases; cbn in *; try congruence; try lia.
Qed.

Lemma SFcompare_lt_trans (x y z : spec_float) :
  SFcompare x y = Some Lt -> SFcompare y z = Some Lt ->
  SFcompare x z = Some Lt.
Proof.
  destruct x as [sx | sx | | sx mx ex], y as [sy | sy | | sy my ey],
           z as [sz | sz | | sz mz ez];
    try destruct sx; try destruct sy; try destruct sz; cbn; try congruence;
    intros H1 H2; cmp_cases; cbn in *; try congruence; try lia.
Qed.

(** [x < y] excludes [x >= y]. *)
Lemma float_ltb_not_geb (x y : float) :
  (x <? y)%float = true -> (y <=? x)%float = false.
Proof.
  rewrite ltb_spec, leb_spec. unfold SFltb, SFleb.
  destruct (SFcompare (Prim2SF x) (Prim2SF y)) as [[| |] |] eqn:E;
    try discriminate.
  intros _. rewrite (SFcompare_lt_gt _ _ E). reflexivity.
Qed.

Lemma float_ltb_trans (x y z : float) :
  (x <? y)%float = true -> (y <? z)%float = true -> (x <? z)%float = true.
Proof.
  rewrite !ltb_spec. unfold SFltb.
  destruct (SFcompare (Prim2SF x) (Prim2SF y)) as [[| |] |] eqn:E1;
    try discriminate.
  destruct (SFcompare (Prim2SF y) (Prim2SF z)) as [[| |] |] eqn:E2;
    try discriminate.
  intros _ _. rewrite (SFcompare_lt_trans _ _ _ E1 E2). reflexivity.
Qed.

Lemma fwarning_lt_fdanger (m : metric) :
  (Binary64.fwarning m <? Binary64.fdanger m)%float = true.
Proof. destruct m; reflexivity. Qed.

Lemma falert_step_app current_time log item :
  Binary64.falert_step current_time log item
  = Binary64.femitted current_time item ++ log.
Proof.
  unfold Binary64.femitted, Binary64.falert_step. destruct item as [m value].
  destruct (Binary64.fdanger m <=? value)%float; [reflexivity |].
  destruct (Binary64.fwarning m <=? value)%float; reflexivity.
Qed.

Lemma falert_loop current_time (l : list (metric * float)) log :
  fold_left (Binary64.falert_step current_time) l log
  = List.concat (rev (map (Binary64.femitted current_time) l)) ++ log.
Proof.
  revert log. induction l as [| item l IH]; intros log; simpl.
  - reflexivity.
  - rewrite IH, falert_step_app, concat_app. simpl.
    rewrite app_nil_r, <- app_assoc. reflexivity.
Qed.

(** The log after a tick on floats: the four metrics' alerts, last
    processed first, in front of the prior log. *)
Lemma falerts_after_tick current_time new_data st :
  Binary64.falerts (Binary64.update_monitoring_data current_time new_data st)
  = (Binary64.femitted current_time
       (humidity, Binary64.fget new_data humidity)
     ++ Binary64.femitted current_time
          (temperature, Binary64.fget new_data temperature)
     ++ Binary64.femitted current_time
          (vibration, Binary64.fget new_data vibration)
     ++ Binary64.femitted current_time
          (acoustic, Binary64.fget new_data acoustic))
    ++ Binary64.falerts st.
Proof.
  unfold Binary64.update_monitoring_data; cbn [Binary64.falerts].
  rewrite falert_loop. unfold Binary64.fitems, keys.
  cbn [map rev app List.concat].
  rewrite app_nil_r, <- !app_assoc. reflexivity.
Qed.

(** What another metric's iteration adds is not about the metric. *)
Lemma femitted_other current_time (k m : metric) (value : float) :
  k <> m ->
  filter (about m) (Binary64.femitted current_time (k, value)) = [].
Proof.
  intros Hk. unfold Binary64.femitted, Binary64.falert_step.
  destruct (Binary64.fdanger k <=? value)%float;
    [| destruct (Binary64.fwarning k <=? value)%float];
    destruct k, m; try (exfalso; apply Hk; reflexivity); reflexivity.
Qed.

(** The batch of a tick, restricted to the records about one metric, is
    what that metric's own iteration adds. *)
Lemma batch_about current_time new_data (m : metric) :
  filter (about m)
    (Binary64.femitted current_time
       (humidity, Binary64.fget new_data humidity)
     ++ Binary64.femitted current_time
          (temperature, Binary64.fget new_data temperature)
     ++ Binary64.femitted current_time
          (vibration, Binary64.fget new_data vibration)
     ++ Binary64.femitted current_time
          (acoustic, Binary64.fget new_data acoustic))
  = filter (about m)
      (Binary64.femitted current_time (m, Binary64.fget new_data m)).
Proof.
  rewrite !filter_app.
  destruct m;
    try rewrite (femitted_other _ acoustic) by discriminate;
    try rewrite (femitted_other _ vibration) by discriminate;
    try rewrite (femitted_other _ temperature) by discriminate;
    try rewrite (femitted_other _ humidity) by discriminate;
    rewrite ?app_nil_r; reflexivity.
Qed.

(** C3: when the value of a metric is at or above its danger level (the
    tie included), the batch a tick puts in front of the log holds exactly
    one record about that metric, and it is the CRITICAL one. *)
Theorem tick_danger_one_critical
    (current_time : datetime) (new_data : Binary64.freading)
    (st : Binary64.fsession_state) (m : metric) :
  (Binary64.fdanger m <=? Binary64.fget new_data m)%float = true ->
  exists batch,
    Binary64.falerts
      (Binary64.update_monitoring_data current_time new_data st)
    = batch ++ Binary64.falerts st
    /\ filter (about m) batch
       = [mkAlert current_time "CRITICAL"
            (Binary64.fcritical_message m (Binary64.fget new_data m))]
    /\ Forall (fun a => a_type a <> "WARNING"%string)
              (filter (about m) batch).
Proof.
  intros Hd. eexists. split; [apply falerts_after_tick |].
  assert (E : Binary64.femitted current_time (m, Binary64.fget new_data m)
              = [mkAlert current_time "CRITICAL"
                   (Binary64.fcritical_message m (Binary64.fget new_data m))])
    by (unfold Binary64.femitted, Binary64.falert_step; rewrite Hd;
        reflexivity).
  rewrite batch_about, E.
  assert (F : filter (about m)
                [mkAlert current_time "CRITICAL"
                   (Binary64.fcritical_message m (Binary64.fget new_data m))]
              = [mkAlert current_time "CRITICAL"
                   (Binary64.fcritical_message m (Binary64.fget new_data m))])
    by (destruct m; reflexivity).
  rewrite F. split; [reflexivity |].
  constructor; [discriminate | constructor].
Qed.

Lemma tick_danger_one_critical_witness :
  exists batch,
    Binary64.falerts
      (Binary64.update_monitoring_data 0%Z (Binary64.mkFReading 50 0.7 25 60)
         Binary64.finitial_state)
    = batch ++ Binary64.falerts Binary64.finitial_state
    /\ filter (about vibration) batch
       = [mkAlert 0%Z "CRITICAL" "High vibration level detected: 0.7 g"]
    /\ Forall (fun a => a_type a <> "WARNING"%string)
              (filter (about vibration) batch).
Proof.
  apply (tick_danger_one_critical 0%Z (Binary64.mkFReading 50 0.7 25 60)
           Binary64.finitial_state vibration).
  reflexivity.
Defined.

(** C4: when the value of a metric is at or above its warning level and
    below its danger level, the batch of the tick holds exactly one record
    about that metric, the WARNING one; when it is below the warning level
    the batch holds no record about that metric. *)
Theorem tick_warning_band_one_warning
    (current_time : datetime) (new_data : Binary64.freading)
    (st : Binary64.fsession_state) (m : metric) :
  ((Binary64.fwarning m <=? Binary64.fget new_data m)%float = true
   /\ (Binary64.fget new_data m <? Binary64.fdanger m)%float = true ->
   exists batch,
     Binary64.falerts
       (Binary64.update_monitoring_data current_time new_data st)
     = batch ++ Binary64.falerts st
     /\ filter (about m) batch
        = [mkAlert current_time "WARNING"
             (Binary64.fwarning_message m (Binary64.fget new_data m))])
  /\ ((Binary64.fget new_data m <? Binary64.fwarning m)%float = true ->
      exists batch,
        Binary64.falerts
          (Binary64.update_monitoring_data current_time new_data st)
        = batch ++ Binary64.falerts st
        /\ filter (about m) batch = []).
Proof.
  split.
  - intros [Hw Hd]. apply float_ltb_not_geb in Hd.
    eexists. split; [apply falerts_after_tick |].
    rewrite batch_about.
    unfold Binary64.femitted, Binary64.falert_step. rewrite Hd, Hw.
    destruct m; reflexivity.
  - intros Hw.
    pose proof (float_ltb_trans _ _ _ Hw (fwarning_lt_fdanger m)) as Hd.
    apply float_ltb_not_geb in Hd, Hw.
    eexists. split; [apply falerts_after_tick |].
    rewrite batch_about.
    unfold Binary64.femitted, Binary64.falert_step. rewrite Hd, Hw.
    reflexivity.
Qed.

Lemma tick_warning_band_one_warning_witness :
  (exists batch,
     Binary64.falerts
       (Binary64.update_monitoring_data 0%Z (Binary64.mkFReading 65 0.2 25 60)
          Binary64.finitial_state)
     = batch ++ Binary64.falerts Binary64.finitial_state
     /\ filter (about acoustic) batch
        = [mkAlert 0%Z "WARNING" "Elevated acoustic level: 65.0 dB"])
  /\ (exists batch,
        Binary64.falerts
          (Binary64.update_monitoring_data 0%Z
             (Binary64.mkFReading 65 0.2 25 60) Binary64.finitial_state)
        = batch ++ Binary64.falerts Binary64.finitial_state
        /\ filter (about vibration) batch = []).
Proof.
  split.
  - apply (tick_warning_band_one_warning 0%Z
             (Binary64.mkFReading 65 0.2 25 60) Binary64.finitial_state
             acoustic).
    split; reflexivity.
  - apply (tick_warning_band_one_warning 0%Z
             (Binary64.mkFReading 65 0.2 25 60) Binary64.finitial_state
             vibration).
    reflexivity.
Defined.

(** The tie on the vibration danger level: the float 0.7 raises the
    CRITICAL alert, and the largest float below it a WARNING. *)
Example vibration_danger_tie :
  Binary64.femitted 0%Z (vibration, 0.7%float)
  = [mkAlert 0%Z "CRITICAL" "High vibration level detected: 0.7 g"]
  /\ Binary64.femitted 0%Z (vibration, 0.69999999999999984%float)
     = [mkAlert 0%Z "WARNING" "Elevated vibration level: 0.7 g"].
Proof. split; vm_compute; reflexivity. Qed.

(** The end-to-end reading on the binary64 tick: the same single record. *)
Example binary64_end_to_end (current_time : datetime) :
  Binary64.falerts
    (Binary64.update_monitoring_data current_time
       (Binary64.mkFReading 80 0.2 25 60) Binary64.finitial_state)
  = [mkAlert current_time "CRITICAL" "High acoustic level detected: 80.0 dB"].
Proof. rewrite falerts_after_tick. vm_compute. reflexivity. Qed.
